(** * Pi Builder Python SDK: the request engine and its facade

    A shallow embedding of [packages/core/src/api/sdk_python.py].

    - JSON values (what [json.loads] returns and [json.dumps] takes) are an
      inductive type; a Python [dict] is an association list in insertion
      order.  Floating-point numerals are left out: no body built by the SDK
      holds one and nothing below depends on them.
    - A Python [str] is a [string]; each character is a code point below 256.
    - The network is a [server]: the reply given to the k-th request issued
      during a call.  [Raised e] stands for any exception leaving [Request],
      [urlopen], [read], [decode] or [json.loads]; [Parsed v] for a response
      whose body parsed to the JSON value [v].
    - Effects are threaded through a small reader/state/error monad [M]; the
      state is the chronological [log] of requests issued and of calls to
      [time.sleep].
    - The sleep interval [(2 ** attempt) * 0.1] is kept as the exact rational
      [2 ^ attempt * (1 # 10)]: the literal [0.1] is read as one tenth (the
      product of a float with a power of two does not round).  The integer
      [2 ** attempt] is converted to a float for the product, which raises
      [OverflowError] from [2 ** 1024] on.  [time.sleep] is taken to return
      normally, whatever the interval. *)

From Stdlib Require Import ZArith List String Ascii QArith Lia Bool DecimalString.
Import ListNotations.
Open Scope string_scope.
Open Scope Z_scope.

Set Warnings "-register-all".

(** ** JSON values and Python dictionaries *)

Inductive json : Type :=
| JNull
| JBool (b : bool)
| JInt (z : Z)
| JStr (s : string)
| JList (l : list json)
| JDict (d : list (string * json)).

Definition dict : Type := list (string * json).

(** [key in d], [d.get(key)] and [d[key] = v] on an insertion-ordered dict. *)
Fixpoint dict_lookup {V : Type} (k : string) (d : list (string * V)) : option V :=
  match d with
  | [] => None
  | (k', v) :: r => if String.eqb k k' then Some v else dict_lookup k r
  end.

Definition dict_mem {V : Type} (k : string) (d : list (string * V)) : bool :=
  match dict_lookup k d with Some _ => true | None => false end.

Fixpoint dict_set {V : Type} (k : string) (v : V) (d : list (string * V))
  : list (string * V) :=
  match d with
  | [] => [(k, v)]
  | (k', v') :: r =>
      if String.eqb k k' then (k, v) :: r else (k', v') :: dict_set k v r
  end.

(** Python truth value of a JSON value. *)
Definition truthy (v : json) : bool :=
  match v with
  | JNull => false
  | JBool b => b
  | JInt z => negb (z =? 0)
  | JStr EmptyString => false
  | JStr _ => true
  | JList [] => false
  | JList _ => true
  | JDict [] => false
  | JDict _ => true
  end.

(** Truth value of an [Optional[str]] argument: [None] and the empty string
    are both false. *)
Definition truthy_str (s : option string) : bool :=
  match s with
  | None => false
  | Some EmptyString => false
  | Some _ => true
  end.

(** The string held by an [Optional[str]] argument; it is read only under a
    truth test, where the argument is not [None]. *)
Definition str_value (s : option string) : string :=
  match s with
  | Some x => x
  | None => EmptyString
  end.

(** Truth value of an [Optional[Dict]] argument. *)
Definition truthy_body (b : option dict) : bool :=
  match b with
  | None => false
  | Some [] => false
  | Some _ => true
  end.

(** [a or b] *)
Definition py_or (a b : json) : json := if truthy a then a else b.

(** ** [json.dumps] with its default separators and [ensure_ascii] *)

Definition dquote : string := String (ascii_of_nat 34) EmptyString.
Definition backslash : string := String (ascii_of_nat 92) EmptyString.

Definition hex_digit (n : nat) : ascii :=
  nth n (list_ascii_of_string "0123456789abcdef") "0"%char.

Definition escape_char (c : ascii) : string :=
  let n := nat_of_ascii c in
  if Nat.eqb n 34 then backslash ++ dquote
  else if Nat.eqb n 92 then backslash ++ backslash
  else if Nat.eqb n 10 then backslash ++ "n"
  else if Nat.eqb n 13 then backslash ++ "r"
  else if Nat.eqb n 9 then backslash ++ "t"
  else if Nat.eqb n 8 then backslash ++ "b"
  else if Nat.eqb n 12 then backslash ++ "f"
  else if (Nat.leb 32 n && Nat.leb n 126)%bool then String c EmptyString
  else backslash ++ "u00"
       ++ String (hex_digit (Nat.div n 16))
            (String (hex_digit (Nat.modulo n 16)) EmptyString).

Fixpoint escape (s : string) : string :=
  match s with
  | EmptyString => EmptyString
  | String c r => escape_char c ++ escape r
  end.

Definition quote (s : string) : string := dquote ++ escape s ++ dquote.

Definition dec (z : Z) : string := NilZero.string_of_int (Z.to_int z).

Fixpoint dumps (v : json) : string :=
  match v with
  | JNull => "null"
  | JBool true => "true"
  | JBool false => "false"
  | JInt z => dec z
  | JStr s => quote s
  | JList l =>
      "[" ++ (fix items (l : list json) : string :=
                match l with
                | [] => EmptyString
                | x :: r =>
                    dumps x ++
                    match r with [] => EmptyString | _ => ", " ++ items r end
                end) l ++ "]"
  | JDict d =>
      "{" ++ (fix items (l : list (string * json)) : string :=
                match l with
                | [] => EmptyString
                | (k, x) :: r =>
                    quote k ++ ": " ++ dumps x ++
                    match r with [] => EmptyString | _ => ", " ++ items r end
                end) d ++ "}"
  end.

(** [s.encode()]: the output of [dumps] is ASCII, so the bytes are the
    characters. *)
Definition encode (s : string) : list ascii := list_ascii_of_string s.

(** ** String helpers *)

(** [s.rstrip('/')] *)
Fixpoint rstrip_slash (s : string) : string :=
  match s with
  | EmptyString => EmptyString
  | String c r =>
      match rstrip_slash r with
      | EmptyString => if Ascii.eqb c "/" then EmptyString else String c EmptyString
      | r' => String c r'
      end
  end.

(** [sep.join(parts)] *)
Fixpoint join (sep : string) (parts : list string) : string :=
  match parts with
  | [] => EmptyString
  | [p] => p
  | p :: r => p ++ sep ++ join sep r
  end.

(** ** Exceptions, requests, the server and the effect monad *)

Inductive type_error : Type :=
| NotIterable
| NotAMapping
| UnexpectedKeyword (k : string)
| MissingArguments (ks : list string).

Inductive exn : Type :=
| URLError (reason : string)
| JSONDecodeError (msg : string)
| OtherError (msg : string)
| AttributeError (attr : string)
| TypeError (t : type_error)
| ValueError (arg : json)
| OverflowError (msg : string)
| Exception_ (msg : string).

Inductive result (A : Type) : Type :=
| Ok (a : A)
| Raise (e : exn).
Arguments Ok {A} a.
Arguments Raise {A} e.

Record request : Type := mkRequest {
  url : string;
  data : option (list ascii);
  headers : list (string * string);
  method : string;
  req_timeout : Z
}.

Inductive reply : Type :=
| Raised (e : exn)
| Parsed (v : json).

Definition server : Type := nat -> request -> reply.

Inductive event : Type :=
| Http (r : request)
| Sleep (d : Q).

Record world : Type := mkWorld { calls : nat; log : list event }.

Definition world0 : world := {| calls := 0; log := [] |}.

Definition M (A : Type) : Type := server -> world -> result A * world.

Definition ret {A} (a : A) : M A := fun _ w => (Ok a, w).

Definition raise {A} (e : exn) : M A := fun _ w => (Raise e, w).

Definition bind {A B} (m : M A) (k : A -> M B) : M B :=
  fun srv w =>
    match m srv w with
    | (Ok a, w') => k a srv w'
    | (Raise e, w') => (Raise e, w')
    end.

(** [try: m  except Exception as e: h e] *)
Definition try_except {A} (m : M A) (h : exn -> M A) : M A :=
  fun srv w =>
    match m srv w with
    | (Ok a, w') => (Ok a, w')
    | (Raise e, w') => h e srv w'
    end.

Definition lift {A} (r : result A) : M A := fun _ w => (r, w).

Notation "x <- m ;; k" := (bind m (fun x => k))
  (at level 61, m at next level, right associativity).

Definition rbind {A B} (r : result A) (k : A -> result B) : result B :=
  match r with
  | Ok a => k a
  | Raise e => Raise e
  end.

Fixpoint rmap {A B} (f : A -> result B) (l : list A) : result (list B) :=
  match l with
  | [] => Ok []
  | x :: r => rbind (f x) (fun y => rbind (rmap f r) (fun ys => Ok (y :: ys)))
  end.

(** Issue one request: the server's reply to the [calls]-th request. *)
Definition urlopen (req : request) : M json :=
  fun srv w =>
    let w' := {| calls := S (calls w); log := log w ++ [Http req] |} in
    match srv (calls w) req with
    | Raised e => (Raise e, w')
    | Parsed v => (Ok v, w')
    end.

(** [time.sleep(d)] *)
Definition sleep (d : Q) : M unit :=
  fun _ w => (Ok tt, {| calls := calls w; log := log w ++ [Sleep d] |}).

Definition run {A} (m : M A) (srv : server) : result A * list event :=
  let (r, w) := m srv world0 in (r, log w).

(** [v.get(k, default)]: only a mapping has the attribute. *)
Definition py_get (v : json) (k : string) (default : json) : result json :=
  match v with
  | JDict d =>
      Ok (match dict_lookup k d with Some x => x | None => default end)
  | _ => Raise (AttributeError "get")
  end.

(** [range(n)] *)
Definition range (n : Z) : list Z := map Z.of_nat (seq 0 (Z.to_nat n)).

(** ** The SDK *)

Record PiBuilderSDK : Type := mkSDK {
  api_url : string;
  api_key : option string;
  timeout : Z;
  retries : Z
}.

Definition init (api_url : string) (api_key : option string)
  (timeout retries : Z) : PiBuilderSDK :=
  {| api_url := rstrip_slash api_url;
     api_key := api_key;
     timeout := timeout;
     retries := retries |}.

(** The construction with the defaults [timeout=30, retries=3]. *)
Definition init_default (api_url : string) (api_key : option string)
  : PiBuilderSDK := init api_url api_key 30 3.

Definition build_headers (self : PiBuilderSDK) : list (string * string) :=
  let headers := [("Content-Type", "application/json")] in
  if truthy_str (api_key self) then
    dict_set "Authorization" ("Bearer " ++ str_value (api_key self)) headers
  else headers.

Definition body_data (body : option dict) : option (list ascii) :=
  if truthy_body body then
    match body with
    | Some b => Some (encode (dumps (JDict b)))
    | None => None
    end
  else None.

Definition build_request (self : PiBuilderSDK) (method path : string)
  (body : option dict) : request :=
  {| url := api_url self ++ path;
     data := body_data body;
     headers := build_headers self;
     method := method;
     req_timeout := timeout self |}.

(** The value of [(2 ** attempt) * 0.1] when the product exists. *)
Definition delay (attempt : Z) : Q := (inject_Z (2 ^ attempt) * (1 # 10))%Q.

(** [(2 ** attempt) * 0.1]: the integer power is converted to a float
    first, and no float holds [2 ** 1024] or more. *)
Definition backoff_delay (attempt : Z) : result Q :=
  if 1024 <=? attempt
  then Raise (OverflowError "int too large to convert to float")
  else Ok (delay attempt).

(** The body of the [try] block: one attempt. *)
Definition attempt_body (req : request) : M json :=
  data <- urlopen req ;;
  success <- lift (py_get data "success" JNull) ;;
  if negb (truthy success) then
    err <- lift (py_get data "error" (JStr "Request failed")) ;;
    raise (ValueError err)
  else
    lift (py_get data "data" JNull).

(** [for attempt in range(self.retries): ...] followed by the final [raise];
    [last_error] is the loop-carried variable. *)
Fixpoint retry_loop (self : PiBuilderSDK) (req : request) (attempts : list Z)
  (last_error : option exn) : M json :=
  match attempts with
  | [] =>
      raise (match last_error with
             | Some e => e
             | None => Exception_ "Request failed"
             end)
  | attempt :: rest =>
      try_except (attempt_body req)
        (fun e =>
           _ <- (if attempt <? retries self - 1
                 then d <- lift (backoff_delay attempt) ;; sleep d
                 else ret tt) ;;
           retry_loop self req rest (Some e))
  end.

Definition _request (self : PiBuilderSDK) (method path : string)
  (body : option dict) : M json :=
  retry_loop self (build_request self method path body)
    (range (retries self)) None.

(** ** Typed records and their construction from keyword arguments *)

Module Agent.
Record t : Type := mk {
  id : json;
  name : json;
  type : json;
  status : json;
  capabilities : json
}.
End Agent.

Module Task.
Record t : Type := mk {
  id : json;
  name : json;
  status : json;
  priority : json;
  created_at : json;
  completed_at : json
}.
End Task.

(** Binding of unpacked keyword arguments against a dataclass [__init__]: an unknown keyword is
    refused first, then the required fields that are missing. *)
Definition check_kwargs (fields required : list string) (kw : dict)
  : result unit :=
  match find (fun kv => negb (existsb (String.eqb (fst kv)) fields)) kw with
  | Some (k, _) => Raise (TypeError (UnexpectedKeyword k))
  | None =>
      match filter (fun f => negb (dict_mem f kw)) required with
      | [] => Ok tt
      | ks => Raise (TypeError (MissingArguments ks))
      end
  end.

Definition kwarg (k : string) (kw : dict) (default : json) : json :=
  match dict_lookup k kw with
  | Some v => v
  | None => default
  end.

Definition agent_fields : list string :=
  ["id"; "name"; "type"; "status"; "capabilities"].

Definition task_required : list string :=
  ["id"; "name"; "status"; "priority"; "created_at"].

Definition task_fields : list string := task_required ++ ["completed_at"].

(** [Agent] applied to the keyword arguments unpacked from [v]. *)
Definition Agent_of (v : json) : result Agent.t :=
  match v with
  | JDict kw =>
      rbind (check_kwargs agent_fields agent_fields kw) (fun _ =>
        Ok {| Agent.id := kwarg "id" kw JNull;
              Agent.name := kwarg "name" kw JNull;
              Agent.type := kwarg "type" kw JNull;
              Agent.status := kwarg "status" kw JNull;
              Agent.capabilities := kwarg "capabilities" kw JNull |})
  | _ => Raise (TypeError NotAMapping)
  end.

(** [Task] applied to the keyword arguments unpacked from [v];
    [completed_at] defaults to [None]. *)
Definition Task_of (v : json) : result Task.t :=
  match v with
  | JDict kw =>
      rbind (check_kwargs task_fields task_required kw) (fun _ =>
        Ok {| Task.id := kwarg "id" kw JNull;
              Task.name := kwarg "name" kw JNull;
              Task.status := kwarg "status" kw JNull;
              Task.priority := kwarg "priority" kw JNull;
              Task.created_at := kwarg "created_at" kw JNull;
              Task.completed_at := kwarg "completed_at" kw JNull |})
  | _ => Raise (TypeError NotAMapping)
  end.

(** The elements a [for] loop draws from a JSON value. *)
Definition py_iter (v : json) : result (list json) :=
  match v with
  | JList l => Ok l
  | JDict d => Ok (map (fun kv => JStr (fst kv)) d)
  | JStr s =>
      Ok (map (fun c => JStr (String c EmptyString)) (list_ascii_of_string s))
  | _ => Raise (TypeError NotIterable)
  end.

(** The list comprehension over [v or []] that builds one record per
    element. *)
Definition comprehension {A} (C : json -> result A) (v : json)
  : result (list A) :=
  rbind (py_iter (py_or v (JList []))) (rmap C).

(** ** The facade *)

Definition list_agents (self : PiBuilderSDK) : M (list Agent.t) :=
  data <- _request self "GET" "/api/agents" None ;;
  lift (comprehension Agent_of data).

Definition get_agent (self : PiBuilderSDK) (agent_id : string) : M Agent.t :=
  data <- _request self "GET" ("/api/agents/" ++ agent_id) None ;;
  lift (Agent_of data).

Definition create_agent_body (name agent_type : string)
  (capabilities : option (list string)) : dict :=
  [("name", JStr name);
   ("type", JStr agent_type);
   ("capabilities",
    match capabilities with
    | Some (c :: r) => JList (map JStr (c :: r))
    | _ => JList []
    end)].

Definition create_agent (self : PiBuilderSDK) (name agent_type : string)
  (capabilities : option (list string)) : M Agent.t :=
  let body := create_agent_body name agent_type capabilities in
  data <- _request self "POST" "/api/agents" (Some body) ;;
  lift (Agent_of data).

Definition list_tasks_path (status priority : option string) : string :=
  let query_params : list string := [] in
  let query_params :=
    if truthy_str status
    then app query_params ["status=" ++ str_value status]
    else query_params in
  let query_params :=
    if truthy_str priority
    then app query_params ["priority=" ++ str_value priority]
    else query_params in
  let path := "/api/tasks" in
  match query_params with
  | [] => path
  | _ => path ++ "?" ++ join "&" query_params
  end.

Definition list_tasks (self : PiBuilderSDK) (status priority : option string)
  : M (list Task.t) :=
  data <- _request self "GET" (list_tasks_path status priority) None ;;
  lift (comprehension Task_of data).

Definition get_task (self : PiBuilderSDK) (task_id : string) : M Task.t :=
  data <- _request self "GET" ("/api/tasks/" ++ task_id) None ;;
  lift (Task_of data).

Definition create_task (self : PiBuilderSDK) (name priority : string)
  : M Task.t :=
  let body := [("name", JStr name); ("priority", JStr priority)] in
  data <- _request self "POST" "/api/tasks" (Some body) ;;
  lift (Task_of data).

Definition update_task_body (status priority : option string) : dict :=
  let body : dict := [] in
  let body :=
    if truthy_str status
    then dict_set "status" (JStr (str_value status)) body
    else body in
  let body :=
    if truthy_str priority
    then dict_set "priority" (JStr (str_value priority)) body
    else body in
  body.

Definition update_task (self : PiBuilderSDK) (task_id : string)
  (status priority : option string) : M Task.t :=
  let body := update_task_body status priority in
  data <- _request self "PUT" ("/api/tasks/" ++ task_id) (Some body) ;;
  lift (Task_of data).

Definition list_providers (self : PiBuilderSDK) : M json :=
  data <- _request self "GET" "/api/providers" None ;;
  lift (py_get data "providers" (JList [])).

Definition get_metrics (self : PiBuilderSDK) : M json :=
  _request self "GET" "/api/metrics" None.

Definition health (self : PiBuilderSDK) : M json :=
  _request self "GET" "/health" None.

(** Every public operation with its arguments, and the log a call leaves. *)
Inductive sdk_call : Type :=
| ListAgents
| GetAgent (agent_id : string)
| CreateAgent (name agent_type : string) (capabilities : option (list string))
| ListTasks (status priority : option string)
| GetTask (task_id : string)
| CreateTask (name priority : string)
| UpdateTask (task_id : string) (status priority : option string)
| ListProviders
| GetMetrics
| Health.

Definition call_log (self : PiBuilderSDK) (c : sdk_call) (srv : server)
  : list event :=
  match c with
  | ListAgents => snd (run (list_agents self) srv)
  | GetAgent a => snd (run (get_agent self a) srv)
  | CreateAgent n t c => snd (run (create_agent self n t c) srv)
  | ListTasks s p => snd (run (list_tasks self s p) srv)
  | GetTask t => snd (run (get_task self t) srv)
  | CreateTask n p => snd (run (create_task self n p) srv)
  | UpdateTask t s p => snd (run (update_task self t s p) srv)
  | ListProviders => snd (run (list_providers self) srv)
  | GetMetrics => snd (run (get_metrics self) srv)
  | Health => snd (run (health self) srv)
  end.

(** ** Reading a log *)

Definition requests (tr : list event) : list request :=
  flat_map (fun e => match e with Http r => [r] | Sleep _ => [] end) tr.

Definition sleeps (tr : list event) : list Q :=
  flat_map (fun e => match e with Sleep d => [d] | Http _ => [] end) tr.

Definition attempts_made (tr : list event) : Z :=
  Z.of_nat (List.length (requests tr)).

(** What one reply makes of an attempt: the value returned, or the
    exception the [except] clause records. *)
Definition outcome (r : reply) : result json :=
  match r with
  | Raised e => Raise e
  | Parsed data =>
      rbind (py_get data "success" JNull) (fun success =>
        if negb (truthy success) then
          rbind (py_get data "error" (JStr "Request failed")) (fun err =>
            Raise (ValueError err))
        else py_get data "data" JNull)
  end.

Definition fails (r : reply) : Prop := exists e, outcome r = Raise e.

Definition error_of (r : reply) : option exn :=
  match outcome r with
  | Raise e => Some e
  | Ok _ => None
  end.

(** An envelope: a JSON object; [success_true] when its [success] field is
    the boolean true. *)
Definition envelope (fields : dict) : reply := Parsed (JDict fields).

(** The events of attempt [i] when it fails: the request, then the backoff
    unless [i] is the last index of a budget of [n]. *)
Definition attempt_events (n : Z) (req : request) (i : Z) : list event :=
  Http req :: if i <? n - 1 then [Sleep (delay i)] else [].

(** The log of a call in which all [n] attempts fail. *)
Definition failing_log (req : request) (n : Z) : list event :=
  flat_map (attempt_events n req) (range n).

(** The operand of the final [raise]. *)
Definition final_error (last_error : option exn) : exn :=
  match last_error with
  | Some e => e
  | None => Exception_ "Request failed"
  end.

(** Attempts [0 .. k-1] fail and attempt [k] returns [fields] as a
    successful envelope, whatever request is sent. *)
Definition first_success_at (srv : server) (k : nat) (fields : dict) : Prop :=
  (forall i req, (i < k)%nat -> fails (srv i req)) /\
  (forall req, srv k req = envelope fields) /\
  (exists s, dict_lookup "success" fields = Some s /\ truthy s = true).

(** ** Sample clients and servers *)

(** [PiBuilderSDK(url, key)] with the default timeout and three retries. *)
Definition sdk_default : PiBuilderSDK :=
  init_default "http://localhost:3000/" (Some "secret").

(** A client with no key and a budget of [n] attempts. *)
Definition sdk_anonymous (n : Z) : PiBuilderSDK :=
  init "http://localhost:3000" None 30 n.

(** A client built with [api_key=''] (the empty string). *)
Definition sdk_empty_key : PiBuilderSDK :=
  init "http://localhost:3000" (Some EmptyString) 30 1.

(** A server that gives the same reply to every request. *)
Definition always (r : reply) : server := fun _ _ => r.

(** A server that gives [r0] to the first request and [r] afterwards. *)
Definition first_then (r0 r : reply) : server :=
  fun k _ => match k with O => r0 | S _ => r end.

Definition success_envelope (payload : json) : reply :=
  envelope [("success", JBool true); ("data", payload)].


(** ** Reading the facade and the helpers *)

(** The verb, the path and the body of the one call to [_request] that each
    method makes. *)
Definition call_args (c : sdk_call) : string * string * option dict :=
  match c with
  | ListAgents => ("GET", "/api/agents", None)
  | GetAgent a => ("GET", "/api/agents/" ++ a, None)
  | CreateAgent n t caps =>
      ("POST", "/api/agents", Some (create_agent_body n t caps))
  | ListTasks s p => ("GET", list_tasks_path s p, None)
  | GetTask t => ("GET", "/api/tasks/" ++ t, None)
  | CreateTask n p =>
      ("POST", "/api/tasks", Some [("name", JStr n); ("priority", JStr p)])
  | UpdateTask t s p => ("PUT", "/api/tasks/" ++ t, Some (update_task_body s p))
  | ListProviders => ("GET", "/api/providers", None)
  | GetMetrics => ("GET", "/api/metrics", None)
  | Health => ("GET", "/health", None)
  end.



(** A string of [k] slashes, and the last character of a string. *)
Fixpoint slashes (k : nat) : string :=
  match k with
  | O => EmptyString
  | S k' => String "/" (slashes k')
  end.

Fixpoint last_char (s : string) : option ascii :=
  match s with
  | EmptyString => None
  | String c EmptyString => Some c
  | String _ r => last_char r
  end.


(** ** The effect monad and one attempt *)

Open Scope list_scope.

Lemma attempt_body_eq (req : request) (srv : server) (w : world) :
  attempt_body req srv w =
  (outcome (srv (calls w) req),
   {| calls := S (calls w); log := log w ++ [Http req] |}).
Proof.
  unfold attempt_body, bind, urlopen, lift, raise, outcome.
  destruct (srv (calls w) req) as [e | v]; [reflexivity |].
  destruct (py_get v "success" JNull) as [s | e]; simpl; [| reflexivity].
  destruct (truthy s); simpl; [reflexivity |].
  destruct (py_get v "error" (JStr "Request failed")); reflexivity.
Qed.

Lemma outcome_cases (r : reply) : fails r \/ exists v, outcome r = Ok v.
Proof.
  unfold fails. destruct (outcome r) as [v | e]; eauto.
Qed.

Lemma fails_error_of (r : reply) (e : exn) :
  outcome r = Raise e -> error_of r = Some e.
Proof.
  unfold error_of. intros ->. reflexivity.
Qed.

Lemma run_bind_lift {A B} (m : M A) (f : A -> result B) (srv : server) :
  run (x <- m ;; lift (f x)) srv =
  (rbind (fst (run m srv)) f, snd (run m srv)).
Proof.
  unfold run, bind, lift.
  destruct (m srv world0) as [[a | e] w]; reflexivity.
Qed.

(** ** The retry loop *)

Section Loop.

Variable self : PiBuilderSDK.
Variable req : request.
Variable srv : server.

Let ev := attempt_events (retries self) req.

Lemma retry_loop_cons (i : Z) (rest : list Z) (last : option exn) (w : world) :
  retry_loop self req (i :: rest) last srv w =
  match outcome (srv (calls w) req) with
  | Ok v => (Ok v, {| calls := S (calls w); log := log w ++ [Http req] |})
  | Raise e =>
      if (i <? retries self - 1) && (1024 <=? i)
      then (Raise (OverflowError "int too large to convert to float"),
            {| calls := S (calls w); log := log w ++ [Http req] |})
      else retry_loop self req rest (Some e) srv
             {| calls := S (calls w); log := log w ++ ev i |}
  end.
Proof.
  cbn [retry_loop]. unfold try_except. rewrite attempt_body_eq.
  destruct (outcome (srv (calls w) req)) as [v | e]; [reflexivity |].
  unfold bind, ev, attempt_events, backoff_delay, lift.
  destruct (i <? retries self - 1); cbn; [| reflexivity].
  destruct (1024 <=? i); cbn; [reflexivity |].
  rewrite <- app_assoc. reflexivity.
Qed.

(** The product of the backoff exists at every index that is followed by
    a sleep, when the budget is at most 1025. *)
Lemma no_overflow_small_budget (i : Z) :
  retries self <= 1025 -> (i <? retries self - 1) && (1024 <=? i) = false.
Proof.
  intros Hn. destruct (i <? retries self - 1) eqn:Hi; [| reflexivity].
  apply Z.ltb_lt in Hi. cbn. apply Z.leb_gt. lia.
Qed.

Lemma no_overflow_early (i : Z) :
  i < 1024 -> (i <? retries self - 1) && (1024 <=? i) = false.
Proof.
  intros Hi. replace (1024 <=? i) with false by (symmetry; apply Z.leb_gt; lia).
  apply andb_false_r.
Qed.

(** Every attempt of the budget fails: the loop raises the error of the
    last one (or the operand built from the incoming [last]). *)
Lemma retry_loop_all_fail (m : nat) :
  forall (k : nat) (last : option exn) (w : world),
    retries self <= 1025 ->
    (forall i, (i < m)%nat -> fails (srv (calls w + i)%nat req)) ->
    retry_loop self req (map Z.of_nat (seq k m)) last srv w =
    (Raise (final_error
              match m with
              | O => last
              | S m' => error_of (srv (calls w + m')%nat req)
              end),
     {| calls := calls w + m;
        log := log w ++ flat_map ev (map Z.of_nat (seq k m)) |}).
Proof.
  induction m as [| m IH]; intros k last w Hn Hfail.
  - cbn. rewrite Nat.add_0_r, app_nil_r. destruct w; reflexivity.
  - cbn [seq map]. rewrite retry_loop_cons.
    destruct (Hfail O (Nat.lt_0_succ m)) as [e He].
    rewrite Nat.add_0_r in He. rewrite He.
    rewrite (no_overflow_small_budget _ Hn).
    rewrite IH; cbn [calls log].
    + f_equal.
      * do 2 f_equal. destruct m as [| m'].
        -- rewrite Nat.add_0_r. symmetry. now apply fails_error_of.
        -- now rewrite Nat.add_succ_r.
      * cbn [flat_map]. rewrite <- app_assoc. f_equal. now rewrite Nat.add_succ_r.
    + exact Hn.
    + intros i Hi. replace (S (calls w) + i)%nat with (calls w + S i)%nat by lia.
      apply Hfail. lia.
Qed.

(** Attempts [0 .. j-1] fail and attempt [j] returns [v]. *)
Lemma retry_loop_success (j : nat) :
  forall (k m : nat) (last : option exn) (w : world) (v : json),
    (j < m)%nat ->
    (k + j <= 1024)%nat ->
    (forall i, (i < j)%nat -> fails (srv (calls w + i)%nat req)) ->
    outcome (srv (calls w + j)%nat req) = Ok v ->
    retry_loop self req (map Z.of_nat (seq k m)) last srv w =
    (Ok v,
     {| calls := calls w + S j;
        log := log w ++ flat_map ev (map Z.of_nat (seq k j)) ++ [Http req] |}).
Proof.
  induction j as [| j IH]; intros k m last w v Hlt Hsmall Hfail Hok.
  - destruct m as [| m]; [lia |].
    cbn [seq map]. rewrite retry_loop_cons.
    rewrite Nat.add_0_r in Hok. rewrite Hok. cbn.
    now rewrite Nat.add_1_r.
  - destruct m as [| m]; [lia |].
    cbn [seq map]. rewrite retry_loop_cons.
    destruct (Hfail O (Nat.lt_0_succ j)) as [e He].
    rewrite Nat.add_0_r in He. rewrite He.
    rewrite no_overflow_early by lia.
    rewrite (IH (S k) m (Some e) _ v); cbn [calls log].
    + f_equal. f_equal; [lia |].
      cbn [flat_map]. now rewrite <- !app_assoc.
    + lia.
    + lia.
    + intros i Hi. replace (S (calls w) + i)%nat with (calls w + S i)%nat by lia.
      apply Hfail. lia.
    + now replace (S (calls w) + j)%nat with (calls w + S j)%nat by lia.
Qed.

(** With a budget above 1025, attempts [k .. 1024] failing: the backoff of
    attempt 1024 cannot be computed and its [OverflowError] leaves the
    loop. *)
Lemma retry_loop_overflow (j : nat) :
  forall (k m : nat) (last : option exn) (w : world),
    (j < m)%nat ->
    (k + j = 1024)%nat ->
    1026 <= retries self ->
    (forall i, (i <= j)%nat -> fails (srv (calls w + i)%nat req)) ->
    retry_loop self req (map Z.of_nat (seq k m)) last srv w =
    (Raise (OverflowError "int too large to convert to float"),
     {| calls := calls w + S j;
        log := log w ++ flat_map ev (map Z.of_nat (seq k j)) ++ [Http req] |}).
Proof.
  induction j as [| j IH]; intros k m last w Hlt Hk Hn Hfail.
  - destruct m as [| m]; [lia |].
    cbn [seq map]. rewrite retry_loop_cons.
    destruct (Hfail O (Nat.le_refl _)) as [e He].
    rewrite Nat.add_0_r in He. rewrite He.
    replace ((Z.of_nat k <? retries self - 1) && (1024 <=? Z.of_nat k))
      with true
      by (symmetry; apply andb_true_iff; split;
          [apply Z.ltb_lt | apply Z.leb_le]; lia).
    cbn. now rewrite Nat.add_1_r.
  - destruct m as [| m]; [lia |].
    cbn [seq map]. rewrite retry_loop_cons.
    destruct (Hfail O (Nat.le_0_l _)) as [e He].
    rewrite Nat.add_0_r in He. rewrite He.
    rewrite no_overflow_early by lia.
    rewrite (IH (S k) m (Some e)); cbn [calls log].
    + f_equal. f_equal; [lia |].
      cbn [flat_map]. now rewrite <- !app_assoc.
    + lia.
    + lia.
    + exact Hn.
    + intros i Hi. replace (S (calls w) + i)%nat with (calls w + S i)%nat by lia.
      apply Hfail. lia.
Qed.

(** Either every attempt of a budget fails or there is a first success. *)
Lemma all_fail_or_first_success (c m : nat) :
  (forall i, (i < m)%nat -> fails (srv (c + i)%nat req)) \/
  (exists j v, (j < m)%nat /\
     (forall i, (i < j)%nat -> fails (srv (c + i)%nat req)) /\
     outcome (srv (c + j)%nat req) = Ok v).
Proof.
  induction m as [| m [IH | (j & v & Hj & Hf & Hv)]].
  - left. intros i Hi. lia.
  - destruct (outcome_cases (srv (c + m)%nat req)) as [Hf | [v Hv]].
    + left. intros i Hi. destruct (Nat.eq_dec i m) as [-> | Hne]; [assumption |].
      apply IH. lia.
    + right. exists m, v. repeat split; [lia | | assumption].
      intros i Hi. now apply IH.
  - right. exists j, v. repeat split; [lia | assumption | assumption].
Qed.

(** Whatever the server does, the loop only ever sends [req]. *)
Lemma retry_loop_requests (attempts : list Z) :
  forall (last : option exn) (w : world),
    exists tr : list event,
      log (snd (retry_loop self req attempts last srv w)) = (log w ++ tr)%list /\
      Forall (eq req) (requests tr).
Proof.
  induction attempts as [| i rest IH]; intros last w.
  - exists []. cbn. now rewrite app_nil_r.
  - rewrite retry_loop_cons.
    destruct (outcome (srv (calls w) req)) as [v | e];
      [| destruct ((i <? retries self - 1) && (1024 <=? i))].
    + exists [Http req]. cbn. split; [reflexivity | now constructor].
    + exists [Http req]. cbn. split; [reflexivity | now constructor].
    + destruct (IH (Some e) {| calls := S (calls w); log := log w ++ ev i |})
        as (tr & Hlog & Hall).
      exists (ev i ++ tr). cbn [log] in Hlog. rewrite Hlog, <- app_assoc.
      split; [reflexivity |].
      unfold ev, attempt_events.
      destruct (i <? retries self - 1); cbn; now constructor.
Qed.


End Loop.

(** ** Calls to [_request] *)

Lemma range_pos (n : Z) :
  1 <= n -> range n = 0 :: map Z.of_nat (seq 1 (Z.to_nat n - 1)).
Proof.
  intros Hn. unfold range.
  replace (Z.to_nat n) with (S (Z.to_nat n - 1)) at 1 by lia.
  reflexivity.
Qed.

Lemma range_nonpos (n : Z) : n <= 0 -> range n = [].
Proof.
  intros Hn. unfold range. now replace (Z.to_nat n) with O by lia.
Qed.

Lemma request_all_fail (self : PiBuilderSDK) (method path : string)
  (body : option dict) (srv : server) :
  retries self <= 1025 ->
  (forall i, (i < Z.to_nat (retries self))%nat ->
             fails (srv i (build_request self method path body))) ->
  run (_request self method path body) srv =
  (Raise (final_error
            match Z.to_nat (retries self) with
            | O => None
            | S m => error_of (srv m (build_request self method path body))
            end),
   failing_log (build_request self method path body) (retries self)).
Proof.
  intros Hn Hfail. unfold run, _request, range.
  rewrite retry_loop_all_fail by assumption. reflexivity.
Qed.

Lemma request_success (self : PiBuilderSDK) (method path : string)
  (body : option dict) (srv : server) (j : nat) (v : json) :
  (j < Z.to_nat (retries self))%nat ->
  (j <= 1024)%nat ->
  (forall i, (i < j)%nat ->
             fails (srv i (build_request self method path body))) ->
  outcome (srv j (build_request self method path body)) = Ok v ->
  run (_request self method path body) srv =
  (Ok v,
   flat_map (attempt_events (retries self)
               (build_request self method path body))
     (map Z.of_nat (seq 0 j))
   ++ [Http (build_request self method path body)]).
Proof.
  intros Hj Hsmall Hfail Hok. unfold run, _request, range.
  rewrite (retry_loop_success self _ srv j 0 _ None world0 v Hj Hsmall Hfail
             Hok).
  reflexivity.
Qed.

(** With a budget above 1025 and the first 1025 attempts failing, the call
    ends in the [OverflowError] of the backoff after attempt 1024. *)
Lemma request_overflow (self : PiBuilderSDK) (method path : string)
  (body : option dict) (srv : server) :
  1026 <= retries self ->
  (forall i, (i <= 1024)%nat ->
             fails (srv i (build_request self method path body))) ->
  run (_request self method path body) srv =
  (Raise (OverflowError "int too large to convert to float"),
   flat_map (attempt_events (retries self)
               (build_request self method path body))
     (map Z.of_nat (seq 0 1024))
   ++ [Http (build_request self method path body)]).
Proof.
  intros Hn Hfail. unfold run, _request, range.
  rewrite (retry_loop_overflow self _ srv 1024 0 _ None world0);
    [reflexivity | lia | reflexivity | exact Hn | exact Hfail].
Qed.


Lemma request_sends_only_its_request (self : PiBuilderSDK)
  (method path : string) (body : option dict) (srv : server) :
  Forall (eq (build_request self method path body))
    (requests (snd (run (_request self method path body) srv))).
Proof.
  unfold run, _request.
  destruct (retry_loop_requests self (build_request self method path body) srv
              (range (retries self)) None world0) as (tr & Hlog & Hall).
  destruct (retry_loop self (build_request self method path body)
              (range (retries self)) None srv world0) as [r w].
  cbn in *. now subst.
Qed.

(** ** Shape of the log of a failing call *)

Lemma requests_app (a b : list event) :
  requests (a ++ b) = requests a ++ requests b.
Proof. unfold requests. apply flat_map_app. Qed.

Lemma sleeps_app (a b : list event) :
  sleeps (a ++ b) = sleeps a ++ sleeps b.
Proof. unfold sleeps. apply flat_map_app. Qed.

Lemma requests_attempts (n : Z) (req : request) (l : list Z) :
  requests (flat_map (attempt_events n req) l) = map (fun _ => req) l.
Proof.
  induction l as [| i l IH]; [reflexivity |].
  cbn [flat_map map]. rewrite requests_app, IH.
  unfold attempt_events. now destruct (i <? n - 1).
Qed.

Lemma sleeps_attempts (req : request) (m : nat) :
  forall k : nat,
    sleeps (flat_map (attempt_events (Z.of_nat (k + m)) req)
              (map Z.of_nat (seq k m))) =
    map delay (map Z.of_nat (seq k (m - 1))).
Proof.
  induction m as [| m IH]; intros k; [reflexivity |].
  cbn [seq map flat_map]. rewrite sleeps_app.
  replace (k + S m)%nat with (S k + m)%nat by lia. rewrite IH.
  unfold attempt_events.
  destruct m as [| m].
  - replace (Z.of_nat k <? Z.of_nat (S k + 0) - 1) with false
      by (symmetry; apply Z.ltb_ge; lia).
    reflexivity.
  - replace (Z.of_nat k <? Z.of_nat (S k + S m) - 1) with true
      by (symmetry; apply Z.ltb_lt; lia).
    cbn. now rewrite Nat.sub_0_r.
Qed.



Lemma sleeps_attempts_before_last (n : Z) (req : request) (l : list Z) :
  Forall (fun i => i < n - 1) l ->
  sleeps (flat_map (attempt_events n req) l) = map delay l.
Proof.
  induction 1 as [| i l Hi _ IH]; [reflexivity |].
  cbn [flat_map map]. rewrite sleeps_app, IH. unfold attempt_events.
  apply Z.ltb_lt in Hi. now rewrite Hi.
Qed.

Lemma seq_below (k j : nat) (n : Z) :
  (k + j < Z.to_nat n)%nat ->
  Forall (fun i => i < n - 1) (map Z.of_nat (seq k j)).
Proof.
  intros Hj. apply Forall_forall. intros i Hi.
  apply in_map_iff in Hi. destruct Hi as (x & <- & Hx).
  apply in_seq in Hx. lia.
Qed.

Lemma success_log_shape (self : PiBuilderSDK) (req : request) (j : nat) :
  (j < Z.to_nat (retries self))%nat ->
  attempts_made
    (flat_map (attempt_events (retries self) req) (map Z.of_nat (seq 0 j))
     ++ [Http req]) = Z.of_nat j + 1 /\
  sleeps
    (flat_map (attempt_events (retries self) req) (map Z.of_nat (seq 0 j))
     ++ [Http req]) = map delay (range (Z.of_nat j)).
Proof.
  intros Hj. split.
  - unfold attempts_made.
    rewrite requests_app, requests_attempts, length_app, !length_map,
      length_seq.
    cbn. lia.
  - rewrite sleeps_app, sleeps_attempts_before_last by now apply seq_below.
    cbn. rewrite app_nil_r. unfold range. now rewrite Nat2Z.id.
Qed.

Lemma failing_log_shape (req : request) (n : Z) :
  attempts_made (failing_log req n) = Z.max 0 n /\
  sleeps (failing_log req n) = map delay (range (n - 1)).
Proof.
  split.
  - unfold attempts_made, failing_log, range.
    rewrite requests_attempts, !length_map, length_seq. lia.
  - unfold failing_log, range.
    destruct (Z.le_gt_cases 0 n) as [Hn | Hn].
    + pose proof (sleeps_attempts req (Z.to_nat n) 0) as Hs.
      cbn [Nat.add] in Hs. rewrite Z2Nat.id in Hs by exact Hn.
      rewrite Hs. now replace (Z.to_nat (n - 1)) with (Z.to_nat n - 1)%nat
        by lia.
    + replace (Z.to_nat n) with O by lia.
      now replace (Z.to_nat (n - 1)) with O by lia.
Qed.

(** ** Kinds of failing replies *)



Lemma truthy_envelope_outcome (fields : dict) (s : json) :
  dict_lookup "success" fields = Some s -> truthy s = true ->
  outcome (envelope fields) =
  Ok match dict_lookup "data" fields with
     | Some v => v
     | None => JNull
     end.
Proof.
  unfold envelope, outcome, py_get, rbind.
  intros -> ->. reflexivity.
Qed.

(** ** The claims about the transport engine *)




(** C2.  Whatever the (positive) retry budget, when the first attempt
    returns an envelope whose [success] is true, a single request is issued
    and the call returns the envelope's [data] field as it is ([None] when
    the envelope has none). *)
Theorem request_first_attempt_success
  (self : PiBuilderSDK) (method path : string) (body : option dict)
  (srv : server) (fields : dict) (s : json) :
  1 <= retries self ->
  srv O (build_request self method path body) = envelope fields ->
  dict_lookup "success" fields = Some s ->
  truthy s = true ->
  run (_request self method path body) srv =
    (Ok match dict_lookup "data" fields with
        | Some v => v
        | None => JNull
        end,
     [Http (build_request self method path body)]) /\
  attempts_made (snd (run (_request self method path body) srv)) = 1.
Proof.
  intros Hn Hsrv Hs Ht.
  assert (Hrun : run (_request self method path body) srv =
    (Ok match dict_lookup "data" fields with
        | Some v => v
        | None => JNull
        end,
     [Http (build_request self method path body)])).
  { apply (request_success self method path body srv 0); [lia | lia | lia |].
    rewrite Hsrv. exact (truthy_envelope_outcome fields s Hs Ht). }
  rewrite Hrun. split; reflexivity.
Qed.

Lemma request_first_attempt_success_witness :
  run (_request (sdk_anonymous 5) "GET" "/api/metrics" None)
    (first_then (success_envelope (JDict [("uptime", JInt 42)]))
       (Raised (URLError "unreachable"))) =
  (Ok (JDict [("uptime", JInt 42)]),
   [Http (build_request (sdk_anonymous 5) "GET" "/api/metrics" None)]).
Proof.
  destruct (request_first_attempt_success (sdk_anonymous 5) "GET"
              "/api/metrics" None
              (first_then (success_envelope (JDict [("uptime", JInt 42)]))
                 (Raised (URLError "unreachable")))
              [("success", JBool true); ("data", JDict [("uptime", JInt 42)])]
              (JBool true))
    as [Hrun _].
  - cbn. lia.
  - reflexivity.
  - reflexivity.
  - reflexivity.
  - exact Hrun.
Defined.









(** ** The requests of the facade *)

Lemma call_log_is_request_log (self : PiBuilderSDK) (c : sdk_call)
  (srv : server) :
  exists method path body,
    call_log self c srv = snd (run (_request self method path body) srv).
Proof.
  destruct c; cbn [call_log];
    unfold list_agents, get_agent, create_agent, list_tasks, get_task,
      create_task, update_task, list_providers, get_metrics, health;
    try rewrite run_bind_lift; cbn [snd]; eauto.
Qed.

Lemma call_log_requests (self : PiBuilderSDK) (c : sdk_call) (srv : server) :
  Forall (fun r => headers r = build_headers self /\
                   req_timeout r = timeout self)
    (requests (call_log self c srv)).
Proof.
  destruct (call_log_is_request_log self c srv) as (m & p & b & ->).
  eapply Forall_impl; [| apply request_sends_only_its_request].
  intros r <-. split; reflexivity.
Qed.

(** C5, as amended.  Every request of every operation carries
    [Authorization: Bearer <key>] when the client was built with a
    non-empty key, and no [Authorization] header at all when it was built
    with no key or with the empty string. *)
Theorem authorization_header_iff_nonempty_key
  (base : string) (key : option string) (tmo n : Z)
  (c : sdk_call) (srv : server) :
  Forall (fun r =>
            match key with
            | Some (String a k) =>
                In ("Authorization", ("Bearer " ++ String a k)%string)
                  (headers r)
            | _ => forall v, ~ In ("Authorization", v) (headers r)
            end)
    (requests (call_log (init base key tmo n) c srv)).
Proof.
  eapply Forall_impl; [| apply call_log_requests].
  intros r [-> _]. unfold build_headers, init. cbn [api_key].
  destruct key as [[| a k] |]; cbn.
  - intros v [H | []]. discriminate H.
  - right. left. reflexivity.
  - intros v [H | []]. discriminate H.
Qed.

(** C5 as stated fails for a key that is the empty string: the key was
    supplied, and the request goes out with the content type only. *)
Lemma empty_api_key_omits_authorization :
  api_key sdk_empty_key = Some EmptyString /\
  map headers
    (requests (call_log sdk_empty_key Health
                 (always (Raised (URLError "refused"))))) =
  [[("Content-Type", "application/json")]].
Proof.
  split; reflexivity.
Qed.

Lemma retry_loop_extends_log (self : PiBuilderSDK) (req : request)
  (srv : server) (attempts : list Z) (last : option exn) (w : world) :
  exists tr : list event,
    log (snd (retry_loop self req attempts last srv w)) = log w ++ tr.
Proof.
  destruct (retry_loop_requests self req srv attempts last w) as (tr & H & _).
  now exists tr.
Qed.

(** With a budget of at least one attempt the first thing a call does is
    to send its request. *)
Lemma request_log_starts_with_request (self : PiBuilderSDK)
  (method path : string) (body : option dict) (srv : server) :
  1 <= retries self ->
  exists tr,
    snd (run (_request self method path body) srv) =
    Http (build_request self method path body) :: tr.
Proof.
  intros Hn. unfold run, _request. rewrite (range_pos _ Hn).
  destruct (retry_loop self (build_request self method path body)
              (0 :: map Z.of_nat (seq 1 (Z.to_nat (retries self) - 1)))
              None srv world0) as [r w] eqn:Hrun.
  cbn [snd]. rewrite retry_loop_cons in Hrun. cbn [calls log world0] in Hrun.
  destruct (outcome (srv O (build_request self method path body)))
    as [v | e].
  - injection Hrun as _ <-. now exists [].
  - destruct ((0 <? retries self - 1) && (1024 <=? 0)).
    + injection Hrun as _ <-. now exists [].
    + match type of Hrun with
      | retry_loop ?s ?q ?l ?e ?sv ?w0 = _ =>
          destruct (retry_loop_extends_log s q sv l e w0) as [tr Htr]
      end.
      rewrite Hrun in Htr. cbn [snd log] in Htr. rewrite Htr.
      unfold attempt_events. cbn [app]. eauto.
Qed.

(** C6.  A call to [_request] with a budget of at least one attempt does
    send requests, and each of them holds a payload, the bytes of the JSON
    text of the body, exactly when the body is present and not empty; with
    no body or an empty mapping it holds none. *)
Theorem request_payload_iff_nonempty_body
  (self : PiBuilderSDK) (method path : string) (body : option dict)
  (srv : server) :
  1 <= retries self ->
  (exists r rest,
     requests (snd (run (_request self method path body) srv)) = r :: rest) /\
  Forall (fun r =>
            data r =
              match body with
              | Some (kv :: b) =>
                  Some (list_ascii_of_string (dumps (JDict (kv :: b))))
              | _ => None
              end /\
            (data r <> None <-> exists b, body = Some b /\ b <> []))
    (requests (snd (run (_request self method path body) srv))).
Proof.
  intros Hn. split.
  - destruct (request_log_starts_with_request self method path body srv Hn)
      as [tr ->].
    cbn. eauto.
  - eapply Forall_impl; [| apply request_sends_only_its_request].
    intros r <-. cbn [data build_request]. unfold body_data, encode.
    destruct body as [[| kv b] |]; cbn; (split; [reflexivity |]).
    + split; [intros H; now elim H | intros (b & Hb & Hne)].
      injection Hb as <-. now elim Hne.
    + split; [intros _ | discriminate].
      exists (kv :: b). split; [reflexivity | discriminate].
    + split; [intros H; now elim H | intros (b & Hb & _); discriminate Hb].
Qed.

Lemma request_payload_iff_nonempty_body_witness :
  map data
    (requests
       (snd (run (_request (sdk_anonymous 2) "POST" "/api/tasks"
                    (Some [("name", JStr "build"); ("urgent", JBool true)]))
               (first_then (Raised (URLError "reset"))
                  (success_envelope JNull))))) =
  [Some (list_ascii_of_string
           ("{" ++ dquote ++ "name" ++ dquote ++ ": "
                ++ dquote ++ "build" ++ dquote ++ ", "
                ++ dquote ++ "urgent" ++ dquote ++ ": true}")%string);
   Some (list_ascii_of_string
           ("{" ++ dquote ++ "name" ++ dquote ++ ": "
                ++ dquote ++ "build" ++ dquote ++ ", "
                ++ dquote ++ "urgent" ++ dquote ++ ": true}")%string)] /\
  map data
    (requests
       (snd (run (_request (sdk_anonymous 2) "PUT" "/api/tasks/7" (Some []))
               (always (success_envelope JNull))))) = [None].
Proof.
  destruct (request_payload_iff_nonempty_body (sdk_anonymous 2) "POST"
              "/api/tasks"
              (Some [("name", JStr "build"); ("urgent", JBool true)])
              (first_then (Raised (URLError "reset"))
                 (success_envelope JNull)))
    as [_ Hfull]; [cbn; lia |].
  destruct (request_payload_iff_nonempty_body (sdk_anonymous 2) "PUT"
              "/api/tasks/7" (Some [])
              (always (success_envelope JNull)))
    as [_ Hempty]; [cbn; lia |].
  split.
  - inversion Hfull as [| r1 l1 [H1 _] Hrest Heq]; subst.
    inversion Hrest as [| r2 l2 [H2 _] Hrest2 Heq2]; subst.
    reflexivity.
  - reflexivity.
Defined.

(** ** The claims about the facade *)



Lemma always_success_first (fields : dict) (s : json) :
  dict_lookup "success" fields = Some s -> truthy s = true ->
  first_success_at (always (envelope fields)) 0 fields.
Proof.
  intros Hs Ht. split; [intros i req Hi; lia |].
  split; [reflexivity | eauto].
Qed.


(** C8, as amended.  The body [update_task] hands to the engine holds
    [status] exactly when a non-empty status was supplied and [priority]
    exactly when a non-empty priority was supplied, each with the value
    supplied, and nothing else; every request of the call is a [PUT] whose
    payload is made from that body.  For [status="done"] and no priority
    the body is the single field [status] and the payload is the JSON text
    of that object. *)
Theorem update_task_body_holds_nonempty_fields
  (self : PiBuilderSDK) (task_id : string) (status priority : option string)
  (srv : server) :
  dict_lookup "status" (update_task_body status priority) =
    (if truthy_str status then Some (JStr (str_value status)) else None) /\
  dict_lookup "priority" (update_task_body status priority) =
    (if truthy_str priority then Some (JStr (str_value priority)) else None) /\
  (forall k, dict_mem k (update_task_body status priority) = true ->
             k = "status" \/ k = "priority") /\
  Forall (fun r => method r = "PUT" /\
                   data r = body_data (Some (update_task_body status priority)))
    (requests (snd (run (update_task self task_id status priority) srv))) /\
  update_task_body (Some "done") None = [("status", JStr "done")] /\
  body_data (Some (update_task_body (Some "done") None)) =
    Some (encode ("{" ++ dquote ++ "status" ++ dquote ++ ": "
                      ++ dquote ++ "done" ++ dquote ++ "}")%string).
Proof.
  split; [| split; [| split; [| split; [| split]]]].
  - unfold update_task_body.
    destruct (truthy_str status), (truthy_str priority); reflexivity.
  - unfold update_task_body.
    destruct (truthy_str status), (truthy_str priority); reflexivity.
  - intros k. unfold update_task_body, dict_mem.
    destruct (truthy_str status), (truthy_str priority); cbn;
      repeat match goal with
        | |- context [String.eqb k ?x] =>
            destruct (String.eqb_spec k x); auto
        end; discriminate.
  - unfold update_task. rewrite run_bind_lift. cbn [snd].
    eapply Forall_impl; [| apply request_sends_only_its_request].
    intros r <-. split; reflexivity.
  - reflexivity.
  - reflexivity.
Qed.

(** C8 as stated fails for a status that is the empty string: it is
    supplied, the body does not hold it, and the request has no payload. *)
Lemma update_task_drops_empty_status :
  update_task_body (Some EmptyString) None = [] /\
  map data
    (requests (snd (run (update_task (sdk_anonymous 1) "42"
                           (Some EmptyString) None)
                      (always (success_envelope JNull))))) = [None].
Proof.
  split; reflexivity.
Qed.





(** ** Construction of the client *)

Lemma rstrip_slash_decompose (s : string) :
  exists k, s = (rstrip_slash s ++ slashes k)%string.
Proof.
  induction s as [| c r [k IH]]; [exists O; reflexivity |].
  cbn [rstrip_slash]. destruct (rstrip_slash r) as [| c' r'] eqn:Hr.
  - cbn in IH. subst r. destruct (Ascii.eqb_spec c "/") as [-> | Hc].
    + exists (S k). reflexivity.
    + exists k. reflexivity.
  - exists k. cbn. now rewrite IH at 1.
Qed.

Lemma rstrip_slash_last (s : string) :
  last_char (rstrip_slash s) <> Some "/"%char.
Proof.
  induction s as [| c r IH]; [discriminate |].
  cbn [rstrip_slash]. destruct (rstrip_slash r) as [| c' r'] eqn:Hr.
  - destruct (Ascii.eqb_spec c "/") as [-> | Hc]; cbn; congruence.
  - exact IH.
Qed.

(** X1.  The base URL a client keeps is the one given with all trailing
    slashes removed and nothing else changed: it does not end with a
    slash, and the given URL is the kept one followed by slashes only. *)
Theorem init_strips_trailing_slashes
  (base : string) (key : option string) (tmo n : Z) :
  last_char (api_url (init base key tmo n)) <> Some "/"%char /\
  exists k, base = (api_url (init base key tmo n) ++ slashes k)%string.
Proof.
  split; [apply rstrip_slash_last | apply rstrip_slash_decompose].
Qed.

(** ** Replies *)

Lemma outcome_ok_iff (r : reply) (v : json) :
  outcome r = Ok v <->
  exists fields s,
    r = envelope fields /\
    dict_lookup "success" fields = Some s /\ truthy s = true /\
    v = match dict_lookup "data" fields with
        | Some x => x
        | None => JNull
        end.
Proof.
  split.
  - destruct r as [e | [| b | z | s | l | d]]; try discriminate.
    unfold outcome, py_get, rbind.
    destruct (dict_lookup "success" d) as [s |] eqn:Hs.
    + destruct (truthy s) eqn:Ht; cbn; [| discriminate].
      intros H. injection H as <-. exists d, s. repeat split; assumption.
    + cbn. discriminate.
  - intros (fields & s & -> & Hs & Ht & ->).
    exact (truthy_envelope_outcome fields s Hs Ht).
Qed.

(** With a budget of at least two attempts, a first attempt that fails is
    followed by a sleep of [delay 0] and a second request. *)
Lemma request_retries_after_first_failure (self : PiBuilderSDK)
  (method path : string) (body : option dict) (srv : server) :
  2 <= retries self ->
  fails (srv O (build_request self method path body)) ->
  exists tr,
    snd (run (_request self method path body) srv) =
    Http (build_request self method path body) :: Sleep (delay 0)
      :: Http (build_request self method path body) :: tr.
Proof.
  intros Hn [e He]. unfold run, _request, range.
  replace (Z.to_nat (retries self))
    with (S (S (Z.to_nat (retries self) - 2))) by lia.
  cbn [seq map].
  destruct (retry_loop self (build_request self method path body)
              (Z.of_nat 0 :: Z.of_nat 1
                 :: map Z.of_nat (seq 2 (Z.to_nat (retries self) - 2)))
              None srv world0) as [r w] eqn:Hrun.
  cbn [snd]. rewrite retry_loop_cons in Hrun. cbn [calls log world0] in Hrun.
  rewrite He in Hrun. rewrite no_overflow_early in Hrun by (cbn; lia).
  unfold attempt_events in Hrun.
  replace (Z.of_nat 0 <? retries self - 1) with true in Hrun
    by (symmetry; apply Z.ltb_lt; cbn; lia).
  rewrite retry_loop_cons in Hrun. cbn [calls log app] in Hrun.
  destruct (outcome (srv 1%nat (build_request self method path body)))
    as [v | e'].
  - injection Hrun as _ <-. now exists [].
  - destruct ((Z.of_nat 1 <? retries self - 1) && (1024 <=? Z.of_nat 1)).
    + injection Hrun as _ <-. now exists [].
    + match type of Hrun with
      | retry_loop ?s ?q ?l ?e0 ?sv ?w0 = _ =>
          destruct (retry_loop_extends_log s q sv l e0 w0) as [tr Htr]
      end.
      rewrite Hrun in Htr. cbn [snd log] in Htr. rewrite Htr.
      unfold attempt_events. cbn [app]. eauto.
Qed.

(** X2.  The first reply decides the first attempt of [_request].  The
    call returns at once, after its single request, exactly when that
    reply is a JSON object whose [success] field is present and true in
    the Python sense; the value returned is then the [data] field, [None]
    when absent.  After any other first reply (an exception, a JSON value
    that is not an object, a missing or falsy [success]) a call with a
    budget of two or more sleeps [0.1] and sends the request again. *)
Theorem first_reply_decides_first_attempt
  (self : PiBuilderSDK) (method path : string) (body : option dict)
  (srv : server) :
  2 <= retries self ->
  (forall v,
     run (_request self method path body) srv =
       (Ok v, [Http (build_request self method path body)]) <->
     exists fields s,
       srv O (build_request self method path body) = envelope fields /\
       dict_lookup "success" fields = Some s /\ truthy s = true /\
       v = match dict_lookup "data" fields with
           | Some x => x
           | None => JNull
           end) /\
  ((forall fields s,
      srv O (build_request self method path body) = envelope fields ->
      dict_lookup "success" fields = Some s -> truthy s = false) ->
   exists tr,
     snd (run (_request self method path body) srv) =
     Http (build_request self method path body)
       :: Sleep (inject_Z (2 ^ 0) * (1 # 10))%Q
       :: Http (build_request self method path body) :: tr).
Proof.
  intros Hn. split.
  - intros v. split.
    + intros Hrun.
      destruct (outcome_cases (srv O (build_request self method path body)))
        as [Hf | [v' Hv']].
      * destruct (request_retries_after_first_failure self method path body
                    srv Hn Hf) as [tr Htr].
        rewrite Hrun in Htr. discriminate Htr.
      * rewrite (request_success self method path body srv 0 v') in Hrun;
          [| lia | lia | intros i Hi; lia | exact Hv'].
        injection Hrun as <-. now apply outcome_ok_iff.
    + intros Hgood. apply outcome_ok_iff in Hgood.
      apply (request_success self method path body srv 0 v);
        [lia | lia | intros i Hi; lia | exact Hgood].
  - intros Hbad.
    apply (request_retries_after_first_failure self method path body srv Hn).
    destruct (outcome_cases (srv O (build_request self method path body)))
      as [Hf | [v Hv]]; [exact Hf |].
    apply outcome_ok_iff in Hv. destruct Hv as (fields & s & Hsrv & Hs & Ht & _).
    rewrite (Hbad fields s Hsrv Hs) in Ht. discriminate Ht.
Qed.

Lemma first_reply_decides_first_attempt_witness :
  (exists tr,
     snd (run (_request sdk_default "GET" "/health" None)
            (first_then (Parsed (JList [JStr "ok"]))
               (success_envelope (JStr "ok")))) =
     Http (build_request sdk_default "GET" "/health" None)
       :: Sleep (inject_Z (2 ^ 0) * (1 # 10))%Q
       :: Http (build_request sdk_default "GET" "/health" None) :: tr) /\
  run (_request sdk_default "GET" "/health" None)
    (always (success_envelope (JStr "ok"))) =
  (Ok (JStr "ok"), [Http (build_request sdk_default "GET" "/health" None)]).
Proof.
  split.
  - apply (first_reply_decides_first_attempt sdk_default "GET" "/health" None
             (first_then (Parsed (JList [JStr "ok"]))
                (success_envelope (JStr "ok")))).
    + cbn. lia.
    + intros fields s Hsrv. discriminate Hsrv.
  - apply (first_reply_decides_first_attempt sdk_default "GET" "/health" None
             (always (success_envelope (JStr "ok")))).
    + cbn. lia.
    + exists [("success", JBool true); ("data", JStr "ok")], (JBool true).
      repeat split.
Defined.

(** ** The backoff schedule *)

(** The log of any call: every attempt of a budget of at most 1025 failed,
    or the call stopped at a request of index [j] (a success, or the
    overflow of the backoff at index 1024). *)
Lemma request_log_shape (self : PiBuilderSDK) (method path : string)
  (body : option dict) (srv : server) :
  (retries self <= 1025 /\
   snd (run (_request self method path body) srv) =
     failing_log (build_request self method path body) (retries self)) \/
  (exists j,
     (j < Z.to_nat (retries self))%nat /\
     snd (run (_request self method path body) srv) =
       flat_map (attempt_events (retries self)
                   (build_request self method path body))
         (map Z.of_nat (seq 0 j))
       ++ [Http (build_request self method path body)]).
Proof.
  destruct (Z.le_gt_cases (retries self) 1025) as [Hn | Hn].
  - destruct (all_fail_or_first_success (build_request self method path body)
                srv 0 (Z.to_nat (retries self)))
      as [Hall | (j & v & Hj & Hfail & Hok)].
    + left. split; [exact Hn |].
      now rewrite (request_all_fail self method path body srv Hn Hall).
    + right. exists j. split; [exact Hj |].
      rewrite (request_success self method path body srv j v);
        [reflexivity | exact Hj | lia | exact Hfail | exact Hok].
  - right.
    destruct (all_fail_or_first_success (build_request self method path body)
                srv 0 1025)
      as [Hall | (j & v & Hj & Hfail & Hok)].
    + exists 1024%nat. split; [lia |].
      rewrite (request_overflow self method path body srv);
        [reflexivity | lia | intros i Hi; apply Hall; lia].
    + exists j. split; [lia |].
      rewrite (request_success self method path body srv j v);
        [reflexivity | lia | lia | exact Hfail | exact Hok].
Qed.

(** X3.  Whatever the server replies and whatever the budget, a call
    issues at most [max 0 retries] requests, and its sleeps are the first
    terms of the doubling series: one sleep of [2^i * 0.1] after each
    request but the last, in order. *)
Theorem request_stays_within_budget
  (self : PiBuilderSDK) (method path : string) (body : option dict)
  (srv : server) :
  0 <= attempts_made (snd (run (_request self method path body) srv))
    <= Z.max 0 (retries self) /\
  sleeps (snd (run (_request self method path body) srv)) =
    map (fun i => (inject_Z (2 ^ i) * (1 # 10))%Q)
      (range (attempts_made (snd (run (_request self method path body) srv))
              - 1)).
Proof.
  destruct (request_log_shape self method path body srv)
    as [[Hn ->] | (j & Hj & ->)].
  - destruct (failing_log_shape (build_request self method path body)
                (retries self)) as [-> ->].
    split; [lia |]. destruct (Z.le_gt_cases 0 (retries self)) as [Hpos | Hneg].
    + now rewrite Z.max_r by exact Hpos.
    + rewrite Z.max_l by lia. unfold range.
      replace (Z.to_nat (retries self - 1)) with O by lia. reflexivity.
  - destruct (success_log_shape self (build_request self method path body) j Hj)
      as [-> ->].
    split; [lia |]. now replace (Z.of_nat j + 1 - 1) with (Z.of_nat j) by lia.
Qed.






(** ** How the facade uses the engine *)

Lemma call_log_by_args (self : PiBuilderSDK) (c : sdk_call) (srv : server) :
  call_log self c srv =
  snd (run (_request self (fst (fst (call_args c))) (snd (fst (call_args c)))
              (snd (call_args c))) srv).
Proof.
  destruct c; cbn [call_log call_args fst snd];
    unfold list_agents, get_agent, create_agent, list_tasks, get_task,
      create_task, update_task, list_providers, get_metrics, health;
    try rewrite run_bind_lift; reflexivity.
Qed.


(** X6.  Each method of the facade goes to the network through one call
    to [_request] and nothing else: every request it issues is the same
    request, with the method's verb, the base URL followed by the method's
    path, the payload of its body, the client's headers and timeout; and
    there are at most [max 0 retries] of them. *)
Theorem facade_requests_follow_their_method
  (self : PiBuilderSDK) (c : sdk_call) (srv : server) :
  Forall (fun r =>
            method r = fst (fst (call_args c)) /\
            url r = (api_url self ++ snd (fst (call_args c)))%string /\
            data r = body_data (snd (call_args c)) /\
            headers r = build_headers self /\
            req_timeout r = timeout self)
    (requests (call_log self c srv)) /\
  attempts_made (call_log self c srv) <= Z.max 0 (retries self).
Proof.
  rewrite call_log_by_args. split.
  - eapply Forall_impl; [| apply request_sends_only_its_request].
    intros r <-. repeat split.
  - destruct (request_log_shape self (fst (fst (call_args c)))
                (snd (fst (call_args c))) (snd (call_args c)) srv)
      as [[Hn ->] | (j & Hj & ->)].
    + destruct (failing_log_shape
                  (build_request self (fst (fst (call_args c)))
                     (snd (fst (call_args c))) (snd (call_args c)))
                  (retries self)) as [-> _].
      lia.
    + destruct (success_log_shape self
                  (build_request self (fst (fst (call_args c)))
                     (snd (fst (call_args c))) (snd (call_args c))) j Hj)
        as [-> _].
      lia.
Qed.



Lemma request_first_attempt_success_aux (self : PiBuilderSDK) (srv : server)
  (fields : dict) (s : json) :
  1 <= retries self ->
  (forall req, srv O req = envelope fields) ->
  dict_lookup "success" fields = Some s ->
  truthy s = true ->
  forall (method path : string) (body : option dict),
    run (_request self method path body) srv =
      (Ok match dict_lookup "data" fields with
          | Some v => v
          | None => JNull
          end,
       [Http (build_request self method path body)]).
Proof.
  intros Hn Hsrv Hs Ht method path body.
  apply (request_success self method path body srv 0); [lia | lia | lia |].
  rewrite Hsrv. exact (truthy_envelope_outcome fields s Hs Ht).
Qed.

(** X8.  A response the record constructor refuses is not retried: when
    the first attempt returns a successful envelope, [get_agent] raises the
    error of [Agent] on its [data] if [Agent] rejects it, and [get_task]
    the error of [Task] if [Task] rejects it, each after exactly one
    request, whatever budget is left. *)
Theorem construction_error_is_not_retried
  (self : PiBuilderSDK) (srv : server) (fields : dict) (ident : string) :
  1 <= retries self ->
  first_success_at srv 0 fields ->
  (forall ea,
     Agent_of match dict_lookup "data" fields with
              | Some x => x
              | None => JNull
              end = Raise ea ->
     run (get_agent self ident) srv =
       (Raise ea,
        [Http (build_request self "GET" ("/api/agents/" ++ ident) None)])) /\
  (forall et,
     Task_of match dict_lookup "data" fields with
             | Some x => x
             | None => JNull
             end = Raise et ->
     run (get_task self ident) srv =
       (Raise et,
        [Http (build_request self "GET" ("/api/tasks/" ++ ident) None)])).
Proof.
  intros Hn (_ & Hsrv & s & Hs & Ht).
  unfold get_agent, get_task. rewrite !run_bind_lift.
  rewrite !(request_first_attempt_success_aux self srv fields s Hn Hsrv Hs Ht).
  cbn [fst snd rbind]. split; intros e ->; reflexivity.
Qed.

Lemma construction_error_is_not_retried_witness :
  run (get_agent sdk_default "a1")
    (always (success_envelope
               (JDict [("id", JStr "t1"); ("name", JStr "build");
                       ("status", JStr "open"); ("priority", JStr "high");
                       ("created_at", JStr "2024-01-01")]))) =
    (Raise (TypeError (UnexpectedKeyword "priority")),
     [Http (build_request sdk_default "GET" "/api/agents/a1" None)]) /\
  run (get_task sdk_default "a1") (always (success_envelope JNull)) =
    (Raise (TypeError NotAMapping),
     [Http (build_request sdk_default "GET" "/api/tasks/a1" None)]).
Proof.
  split.
  - apply (construction_error_is_not_retried sdk_default
             (always (success_envelope
                        (JDict [("id", JStr "t1"); ("name", JStr "build");
                                ("status", JStr "open");
                                ("priority", JStr "high");
                                ("created_at", JStr "2024-01-01")])))
             [("success", JBool true);
              ("data", JDict [("id", JStr "t1"); ("name", JStr "build");
                              ("status", JStr "open");
                              ("priority", JStr "high");
                              ("created_at", JStr "2024-01-01")])]
             "a1").
    + cbn. lia.
    + now apply (always_success_first _ (JBool true)).
    + reflexivity.
  - apply (construction_error_is_not_retried sdk_default
             (always (success_envelope JNull))
             [("success", JBool true); ("data", JNull)] "a1").
    + cbn. lia.
    + now apply (always_success_first _ (JBool true)).
    + reflexivity.
Defined.

(** ** Construction of records *)

Lemma dict_mem_lookup {V : Type} (k : string) (d : list (string * V)) :
  dict_mem k d = true <-> exists v, dict_lookup k d = Some v.
Proof.
  unfold dict_mem. destruct (dict_lookup k d) as [v |].
  - split; [eauto | reflexivity].
  - split; [discriminate | intros [v Hv]; discriminate Hv].
Qed.

Lemma dict_lookup_in {V : Type} (k : string) (d : list (string * V)) (v : V) :
  dict_lookup k d = Some v -> In (k, v) d.
Proof.
  induction d as [| [k' v'] d IH]; [discriminate |].
  cbn. destruct (String.eqb_spec k k') as [-> | Hne].
  - intros H. injection H as ->. now left.
  - intros H. right. now apply IH.
Qed.

Lemma in_dict_mem {V : Type} (k : string) (d : list (string * V)) (v : V) :
  In (k, v) d -> dict_mem k d = true.
Proof.
  unfold dict_mem. induction d as [| [k' v'] d IH]; [intros [] |].
  cbn. destruct (String.eqb_spec k k') as [-> | Hne]; [reflexivity |].
  intros [H | H]; [injection H as -> _; now elim Hne | now apply IH].
Qed.

Lemma kwarg_lookup (k : string) (kw : dict) (default : json) :
  dict_mem k kw = true -> dict_lookup k kw = Some (kwarg k kw default).
Proof.
  unfold dict_mem, kwarg. now destruct (dict_lookup k kw).
Qed.

Lemma check_kwargs_ok (fields required : list string) (kw : dict) :
  check_kwargs fields required kw = Ok tt <->
  (forall k, dict_mem k kw = true -> In k fields) /\
  (forall f, In f required -> dict_mem f kw = true).
Proof.
  unfold check_kwargs. split.
  - destruct (find _ kw) as [[k v] |] eqn:Hfind; [discriminate |].
    destruct (filter _ required) as [| f l] eqn:Hfilter; [| discriminate].
    intros _. split.
    + intros k Hk. apply dict_mem_lookup in Hk. destruct Hk as [v Hv].
      apply dict_lookup_in in Hv.
      pose proof (find_none _ _ Hfind _ Hv) as Hnone. cbn in Hnone.
      apply negb_false_iff, existsb_exists in Hnone.
      destruct Hnone as (y & Hy & Heq). apply String.eqb_eq in Heq. now subst.
    + intros f Hf. destruct (dict_mem f kw) eqn:Hm; [reflexivity |].
      assert (Hin : In f (filter (fun f => negb (dict_mem f kw)) required))
        by (apply filter_In; now rewrite Hm).
      rewrite Hfilter in Hin. destruct Hin.
  - intros [Hknown Hreq].
    destruct (find _ kw) as [[k v] |] eqn:Hfind.
    + apply find_some in Hfind. destruct Hfind as [Hin Hneg]. cbn in Hneg.
      apply negb_true_iff in Hneg.
      assert (Hex : existsb (String.eqb k) fields = true).
      { apply existsb_exists. exists k. split; [| apply String.eqb_refl].
        apply Hknown. exact (in_dict_mem k kw v Hin). }
      congruence.
    + destruct (filter _ required) as [| f l] eqn:Hfilter; [reflexivity |].
      assert (Hin : In f (filter (fun f => negb (dict_mem f kw)) required))
        by (rewrite Hfilter; now left).
      apply filter_In in Hin. destruct Hin as [Hf Hneg].
      rewrite (Hreq f Hf) in Hneg. discriminate Hneg.
Qed.

Lemma check_kwargs_cases (fields required : list string) (kw : dict) :
  check_kwargs fields required kw = Ok tt \/
  exists t, check_kwargs fields required kw = Raise (TypeError t).
Proof.
  unfold check_kwargs. destruct (find _ kw) as [[k v] |]; [eauto |].
  destruct (filter _ required); eauto.
Qed.

(** X9.  [Agent] is built from a response exactly when the response is a
    mapping whose keys are the five fields of the record, no more and no
    fewer; each field of the record is then the value under its key,
    whatever its type. *)
Theorem Agent_accepts_exactly_its_fields (v : json) (a : Agent.t) :
  Agent_of v = Ok a <->
  exists kw,
    v = JDict kw /\
    (forall k, dict_mem k kw = true <-> In k agent_fields) /\
    dict_lookup "id" kw = Some (Agent.id a) /\
    dict_lookup "name" kw = Some (Agent.name a) /\
    dict_lookup "type" kw = Some (Agent.type a) /\
    dict_lookup "status" kw = Some (Agent.status a) /\
    dict_lookup "capabilities" kw = Some (Agent.capabilities a).
Proof.
  split.
  - destruct v as [| | | | | kw]; try discriminate.
    unfold Agent_of.
    destruct (check_kwargs_cases agent_fields agent_fields kw)
      as [Hok | [t Ht]]; [| rewrite Ht; discriminate].
    rewrite Hok. cbn [rbind]. intros H. injection H as <-.
    apply check_kwargs_ok in Hok. destruct Hok as [Hknown Hreq].
    exists kw. split; [reflexivity |].
    split; [intros k; split; [apply Hknown | apply Hreq] |].
    cbn [Agent.id Agent.name Agent.type Agent.status Agent.capabilities].
    repeat split; apply kwarg_lookup, Hreq; cbn; tauto.
  - intros (kw & -> & Hkeys & Hid & Hname & Htype & Hstatus & Hcaps).
    unfold Agent_of.
    assert (Hok : check_kwargs agent_fields agent_fields kw = Ok tt).
    { apply check_kwargs_ok. split; intros k Hk; now apply Hkeys. }
    rewrite Hok. cbn [rbind]. unfold kwarg.
    rewrite Hid, Hname, Htype, Hstatus, Hcaps. now destruct a.
Qed.

(** X10.  [Task] is built from a response exactly when the response is a
    mapping that holds the five required fields and no key besides them
    and [completed_at]; a missing [completed_at] becomes [None]. *)
Theorem Task_accepts_required_and_optional_fields (v : json) (t : Task.t) :
  Task_of v = Ok t <->
  exists kw,
    v = JDict kw /\
    (forall k, dict_mem k kw = true -> In k task_fields) /\
    (forall f, In f task_required -> dict_mem f kw = true) /\
    dict_lookup "id" kw = Some (Task.id t) /\
    dict_lookup "name" kw = Some (Task.name t) /\
    dict_lookup "status" kw = Some (Task.status t) /\
    dict_lookup "priority" kw = Some (Task.priority t) /\
    dict_lookup "created_at" kw = Some (Task.created_at t) /\
    Task.completed_at t =
      match dict_lookup "completed_at" kw with
      | Some x => x
      | None => JNull
      end.
Proof.
  split.
  - destruct v as [| | | | | kw]; try discriminate.
    unfold Task_of.
    destruct (check_kwargs_cases task_fields task_required kw)
      as [Hok | [e He]]; [| rewrite He; discriminate].
    rewrite Hok. cbn [rbind]. intros H. injection H as <-.
    apply check_kwargs_ok in Hok. destruct Hok as [Hknown Hreq].
    exists kw. split; [reflexivity |]. split; [exact Hknown |].
    split; [exact Hreq |].
    cbn [Task.id Task.name Task.status Task.priority Task.created_at
         Task.completed_at].
    repeat split; try (apply kwarg_lookup, Hreq; cbn; tauto).
  - intros (kw & -> & Hknown & Hreq & Hid & Hname & Hstatus & Hprio & Hcreated
            & Hcompleted).
    unfold Task_of.
    assert (Hok : check_kwargs task_fields task_required kw = Ok tt)
      by (apply check_kwargs_ok; now split).
    rewrite Hok. cbn [rbind]. unfold kwarg.
    rewrite Hid, Hname, Hstatus, Hprio, Hcreated, <- Hcompleted.
    now destruct t.
Qed.

(** ** List results *)








(** ** Bodies and paths of the facade *)

(** X14.  [create_agent] and [create_task] never lose their body: every
    request they issue is a [POST] carrying the JSON text of an object with
    the fields [name], [type], [capabilities] (resp. [name], [priority]) in
    that order, even when the strings are empty; absent and empty
    [capabilities] give the same body, the empty list. *)
Theorem create_operations_always_send_their_body
  (self : PiBuilderSDK) (name kind priority : string)
  (capabilities : option (list string)) (srv : server) :
  Forall (fun r =>
            method r = "POST" /\
            data r =
              Some (encode
                      (dumps (JDict (create_agent_body name kind
                                       capabilities)))))
    (requests (snd (run (create_agent self name kind capabilities) srv))) /\
  Forall (fun r =>
            method r = "POST" /\
            data r =
              Some (encode
                      (dumps (JDict [("name", JStr name);
                                     ("priority", JStr priority)]))))
    (requests (snd (run (create_task self name priority) srv))) /\
  map fst (create_agent_body name kind capabilities) =
    ["name"; "type"; "capabilities"] /\
  create_agent_body name kind None = create_agent_body name kind (Some []) /\
  dict_lookup "capabilities" (create_agent_body name kind capabilities) =
    Some (JList (map JStr match capabilities with
                          | Some l => l
                          | None => []
                          end)).
Proof.
  split; [| split; [| split; [| split]]].
  - unfold create_agent. rewrite run_bind_lift. cbn [snd].
    eapply Forall_impl; [| apply request_sends_only_its_request].
    intros r <-. split; reflexivity.
  - unfold create_task. rewrite run_bind_lift. cbn [snd].
    eapply Forall_impl; [| apply request_sends_only_its_request].
    intros r <-. split; reflexivity.
  - reflexivity.
  - reflexivity.
  - now destruct capabilities as [[| c l] |].
Qed.



(** ** The limit of the backoff *)


